(** * The registry-status poll of the MLflow lab

    Source: [Solutions/Labs/ML 05L - MLflow Lab.py], lines 178-193.

<<
    def wait_for_model(model_name, version, stage="None", status="READY", timeout=300):
        import time

        last_stage = "unknown"
        last_status = "unknown"

        for i in range(timeout):
            model_version_details = client.get_model_version(name=model_name, version=version)
            last_stage = str(model_version_details.current_stage)
            last_status = str(model_version_details.status)
            if last_status == str(status) and last_stage == str(stage):
                return

            time.sleep(1)

        raise Exception(f"The model {model_name} v{version} was not {status} after {timeout} seconds: {last_status}/{last_stage}")
>>

    The function talks to two things outside itself: the model registry
    ([client.get_model_version]) and the clock ([time.sleep]).  Both are
    modelled as events appended to a log kept in an explicit world; the
    registry is an oracle giving the answer to the n-th request.

    Assumed throughout: a registry request answers (an exception of the
    client would propagate out of [wait_for_model] unchanged and is not
    modelled), the two attributes read from the answer are [None], a
    [bool], an [int] or a [str], and [timeout] is an [int] (anything else
    makes [range] raise a [TypeError] before the first request). *)

From Stdlib Require Import String Ascii ZArith List Lia Bool DecimalString.
From Stdlib Require OrderedTypeEx.
Import ListNotations.
Local Open Scope list_scope.

(** ** Python values and their string conversion *)

Module Py.

(** The values that reach [str(...)] and the f-string here: [None], a
    [bool], an [int] or a [str].  (Floats are left out: their [repr] is
    not modelled.) *)
Inductive value : Type :=
| VNone
| VBool (b : bool)
| VInt (z : Z)
| VStr (s : string).

(** [str(v)].  An [int] prints in decimal, with a leading minus sign when
    negative; a [str] is returned as it is. *)
Definition str (v : value) : string :=
  match v with
  | VNone => "None"
  | VBool true => "True"
  | VBool false => "False"
  | VInt z => NilZero.string_of_int (Z.to_int z)
  | VStr s => s
  end.

(** A replacement field [{v}] of an f-string with no conversion and no
    format spec is [format(v, "")], which is [str(v)] for these types. *)
Definition fmt (v : value) : string := str v.

(** An f-string: the literal pieces and the formatted fields, joined. *)
Definition fstring (pieces : list string) : string :=
  fold_right String.append EmptyString pieces.

(** [range(n)] for an [int] [n]: empty when [n <= 0]. *)
Definition range (n : Z) : list Z :=
  map Z.of_nat (seq 0 (Z.to_nat n)).

(** [needle in hay] on strings. *)
Fixpoint contains (needle hay : string) : bool :=
  String.prefix needle hay
  || match hay with
     | EmptyString => false
     | String _ hay' => contains needle hay'
     end.

(** [hay.endswith(suffix)]. *)
Fixpoint endswith (hay suffix : string) : bool :=
  String.eqb hay suffix
  || match hay with
     | EmptyString => false
     | String _ hay' => endswith hay' suffix
     end.

End Py.

Import Py.

(** ** The world: registry and clock *)

(** What [client.get_model_version] returns: only the two attributes the
    poll reads.  Both are passed through [str] by the caller, so they are
    kept as arbitrary values. *)
Record model_version : Type := {
  current_stage : value;
  status : value
}.

(** One interaction with the outside: a registry request together with the
    answer it got, or a call of [time.sleep] with its argument (seconds). *)
Inductive event : Type :=
| GetModelVersion (name version : value) (answer : model_version)
| Sleep (secs : Z).

Definition is_check (e : event) : bool :=
  match e with
  | GetModelVersion _ _ _ => true
  | Sleep _ => false
  end.

(** Number of registry requests in a log. *)
Definition checks (l : list event) : nat :=
  length (filter is_check l).

(** The (stage, status) pairs, as strings, that a log shows were read from
    the registry, oldest first. *)
Fixpoint observations (l : list event) : list (string * string) :=
  match l with
  | [] => []
  | GetModelVersion _ _ d :: l' =>
      (str (current_stage d), str (status d)) :: observations l'
  | Sleep _ :: l' => observations l'
  end.

(** The durations slept, oldest first. *)
Fixpoint sleeps (l : list event) : list Z :=
  match l with
  | [] => []
  | GetModelVersion _ _ _ :: l' => sleeps l'
  | Sleep s :: l' => s :: sleeps l'
  end.

(** [registry name version n] is what the registry answers to the request
    number [n] (counted from 0 over the whole log) when asked for
    [name]/[version]. *)
Record world : Type := {
  registry : value -> value -> nat -> model_version;
  log : list event
}.

Definition emit (w : world) (es : list event) : world :=
  {| registry := registry w; log := log w ++ es |}.

Definition fresh (reg : value -> value -> nat -> model_version) : world :=
  {| registry := reg; log := [] |}.

(** ** A state and exception monad over the world *)

Inductive exn : Type :=
| Exception (msg : string).

Inductive outcome (A : Type) : Type :=
| Done (a : A)
| Raised (e : exn).
Arguments Done {A} a.
Arguments Raised {A} e.

Definition M (A : Type) : Type := world -> outcome A * world.

Definition ret {A} (a : A) : M A := fun w => (Done a, w).

Definition bind {A B} (m : M A) (k : A -> M B) : M B :=
  fun w =>
    match m w with
    | (Done a, w') => k a w'
    | (Raised e, w') => (Raised e, w')
    end.

Definition raise {A} (e : exn) : M A := fun w => (Raised e, w).

Declare Scope monad_scope.
Delimit Scope monad_scope with monad.
Notation "x <- m ;; k" := (bind m (fun x => k))
  (at level 61, m at next level, right associativity) : monad_scope.
Notation "m ;; k" := (bind m (fun _ => k))
  (at level 61, right associativity) : monad_scope.
Local Open Scope monad_scope.

(** [client.get_model_version(name=..., version=...)]. *)
Definition get_model_version (name version : value) : M model_version :=
  fun w =>
    let d := registry w name version (checks (log w)) in
    (Done d, emit w [GetModelVersion name version d]).

(** [time.sleep(secs)]. *)
Definition time_sleep (secs : Z) : M unit :=
  fun w => (Done tt, emit w [Sleep secs]).

(** A [for] loop whose body may [return] from the enclosing function:
    the body yields [inl s] to go on with the loop variables [s], or
    [inr r] to return [r] at once. The whole loop yields [inl s] when the
    iterable is exhausted. *)
Fixpoint for_in {I S R : Type} (xs : list I) (body : I -> S -> M (S + R))
    (s : S) : M (S + R) :=
  match xs with
  | [] => ret (inl s)
  | x :: xs' =>
      r <- body x s ;;
      match r with
      | inl s' => for_in xs' body s'
      | inr v => ret (inr v)
      end
  end.

(** ** [wait_for_model] *)

(** The two local variables the loop assigns. *)
Record locals : Type := {
  last_stage : string;
  last_status : string
}.

Definition default_stage : value := VStr "None".
Definition default_status : value := VStr "READY".
Definition default_timeout : Z := 300.

(** The test of the [if]: [last_status == str(status) and last_stage == str(stage)]. *)
Definition target_reached (stage status : value) (s : locals) : bool :=
  String.eqb (last_status s) (str status) && String.eqb (last_stage s) (str stage).

(** The locals after the two assignments from the registry's answer. *)
Definition seen (d : model_version) : locals :=
  {| last_stage := str (current_stage d); last_status := str (status d) |}.

(** The body of the [for] loop; the loop index [i] is not used. *)
Definition poll_once (model_name version stage status : value)
    (i : Z) (s : locals) : M (locals + unit) :=
  model_version_details <- get_model_version model_name version ;;
  let s := seen model_version_details in
  if target_reached stage status s then
    ret (inr tt)
  else
    time_sleep 1 ;;
    ret (inl s).

(** The message of the exception raised after the loop. *)
Definition timeout_message (model_name version status : value) (timeout : Z)
    (s : locals) : string :=
  fstring [ "The model "%string; fmt model_name; " v"%string; fmt version;
            " was not "%string; fmt status; " after "%string; fmt (VInt timeout);
            " seconds: "%string; last_status s; "/"%string; last_stage s ].

Definition wait_for_model (model_name version stage status : value)
    (timeout : Z) : M unit :=
  let s0 := {| last_stage := "unknown"; last_status := "unknown" |} in
  r <- for_in (range timeout) (poll_once model_name version stage status) s0 ;;
  match r with
  | inr tt => ret tt
  | inl s => raise (Exception (timeout_message model_name version status timeout s))
  end.

(** A call site: arguments left out take the defaults of the signature. *)
Definition call_wait_for_model (model_name version : value)
    (stage status : option value) (timeout : option Z) : M unit :=
  wait_for_model model_name version
    (match stage with Some v => v | None => default_stage end)
    (match status with Some v => v | None => default_status end)
    (match timeout with Some t => t | None => default_timeout end).

(** ** Observing a run *)

(** The outcome of running [m] from [w], and the events it appended to the
    log. *)
Definition result_of {A} (m : M A) (w : world) : outcome A := fst (m w).

Definition trace_of {A} (m : M A) (w : world) : list event :=
  skipn (length (log w)) (log (snd (m w))).

(** The pair read at a check, and the pair waited for, after [str]. *)
Definition observed (d : model_version) : string * string :=
  (str (current_stage d), str (status d)).

Definition target (stage status : value) : string * string :=
  (str stage, str status).

(** The registry's answers for one model version, by request number. *)
Definition answers (model_name version : value) (w : world)
    : nat -> model_version :=
  registry w model_name version.

(** The answer to the [k]-th check (counted from 1) made from world [w] on. *)
Definition tick (model_name version : value) (w : world) (k : nat)
    : model_version :=
  answers model_name version w (checks (log w) + pred k).

(** Whether an answer ends the wait: the test of the [if] on the locals
    just assigned. *)
Definition hit (stage status : value) (d : model_version) : bool :=
  target_reached stage status (seen d).

(** The events of [n] rounds that miss the target, the first of them
    being the request number [from]: a request, then a sleep of 1. *)
Fixpoint rounds (model_name version : value) (obs : nat -> model_version)
    (from n : nat) : list event :=
  match n with
  | O => []
  | S n' =>
      GetModelVersion model_name version (obs from)
        :: Sleep 1 :: rounds model_name version obs (S from) n'
  end.

(** The loop variables after [n] rounds from [w], starting with [s]. *)
Definition locals_after (model_name version : value) (w : world) (s : locals)
    (n : nat) : locals :=
  match n with
  | O => s
  | S m => seen (answers model_name version w (checks (log w) + m))
  end.

Definition initial_locals : locals :=
  {| last_stage := "unknown"; last_status := "unknown" |}.

(** ** Registries used in the examples *)

Definition details (stage status : string) : model_version :=
  {| current_stage := VStr stage; status := VStr status |}.

(** Reports [("None", "PENDING")] to the first two requests and
    [("Staging", "READY")] from the third on, whatever the model. *)
Definition staging_from_third (_ _ : value) (n : nat) : model_version :=
  if n <? 2 then details "None" "PENDING" else details "Staging" "READY".

(** Never leaves [("None", "PENDING")]. *)
Definition never_ready (_ _ : value) (_ : nat) : model_version :=
  details "None" "PENDING".

(** Is at [("Staging", "READY")] from the start. *)
Definition ready_at_once (_ _ : value) (_ : nat) : model_version :=
  details "Staging" "READY".

(** Reaches the stage on the second request but the status only on the
    third. *)
Definition stage_before_status (_ _ : value) (n : nat) : model_version :=
  match n with
  | 0 => details "None" "PENDING"
  | 1 => details "Staging" "PENDING"
  | _ => details "Staging" "READY"
  end.

(** A world that has already asked about another model, and whose registry
    holds the stage as [None], not as the string ["None"], until its
    fourth answer. *)
Definition after_another_request : world :=
  emit (fresh (fun _ _ n =>
                 if n <? 3 then Build_model_version VNone (VStr "PENDING")
                 else details "Staging" "READY"))
    [GetModelVersion (VStr "other") (VInt 7) (details "Production" "READY")].

(** ** Further observations of a log *)

(** The seconds slept in all. *)
Definition slept (l : list event) : Z :=
  fold_right Z.add 0%Z (sleeps l).

(** The (name, version) pairs the registry was asked about, oldest first. *)
Fixpoint requested (l : list event) : list (value * value) :=
  match l with
  | [] => []
  | GetModelVersion n v _ :: l' => (n, v) :: requested l'
  | Sleep _ :: l' => requested l'
  end.

(** ** The notebook's own expressions

    The cells around [wait_for_model] in the same file: the two Delta paths
    (lines 54-55), the registered model's name and URI (lines 152-153), and
    the newest version of the model (lines 356-357). *)

Module Notebook.

(** [train_delta_path = working_dir + "/train.delta"]; [+] on two [str]. *)
Definition train_delta_path (working_dir : string) : string :=
  (working_dir ++ "/train.delta")%string.

(** [test_delta_path = working_dir + "/test.delta"]. *)
Definition test_delta_path (working_dir : string) : string :=
  (working_dir ++ "/test.delta")%string.

(** [model_name = f"{cleaned_username}_mllib_lr"]. *)
Definition model_name (cleaned_username : value) : string :=
  fstring [fmt cleaned_username; "_mllib_lr"%string].

(** [model_uri = f"runs:/{run_id}/model"]. *)
Definition model_uri (run_id : value) : string :=
  fstring ["runs:/"%string; fmt run_id; "/model"%string].

(** The exceptions the builtins used below raise, by class. *)
Inductive builtin_error : Type :=
| ValueError
| TypeError.

(** [bool] is a subclass of [int]: [False] is 0 and [True] is 1. *)
Definition as_int (v : value) : option Z :=
  match v with
  | VInt z => Some z
  | VBool b => Some (Z.b2z b)
  | _ => None
  end.

(** [a > b]: numbers by value, strings lexicographically by character
    code; any other pairing raises [TypeError]. *)
Definition gt (a b : value) : builtin_error + bool :=
  match a, b with
  | VStr s, VStr t => inr (String.ltb t s)
  | _, _ =>
      match as_int a, as_int b with
      | Some x, Some y => inr (Z.ltb y x)
      | _, _ => inl TypeError
      end
  end.

(** The loop of [max]: the item becomes the maximum when [item > maximum]. *)
Fixpoint max_from (maximum : value) (items : list value)
    : builtin_error + value :=
  match items with
  | [] => inr maximum
  | item :: items' =>
      match gt item maximum with
      | inl e => inl e
      | inr true => max_from item items'
      | inr false => max_from maximum items'
      end
  end.

(** [max(iterable)]: [ValueError] on an empty iterable. *)
Definition max (items : list value) : builtin_error + value :=
  match items with
  | [] => inl ValueError
  | first :: items' => max_from first items'
  end.

(** What [client.search_model_versions] yields, as far as the notebook
    reads it: the [version] attribute. *)
Record model_version_info : Type := {
  version : value
}.

(** [new_model_version = max([model_version_info.version
                              for model_version_info in model_version_infos])]. *)
Definition new_model_version (model_version_infos : list model_version_info)
    : builtin_error + value :=
  max (map version model_version_infos).

End Notebook.

(** The notebook blocks on the registry several times in a row (lines 198,
    216, 374, 388, 412, 424): one call, then the next. *)
Definition wait_then_wait
    (name1 version1 stage1 status1 : value) (timeout1 : Z)
    (name2 version2 stage2 status2 : value) (timeout2 : Z) : M unit :=
  (wait_for_model name1 version1 stage1 status1 timeout1 ;;
   wait_for_model name2 version2 stage2 status2 timeout2)%monad.

(** ** Arguments left out, and registries that spell their answers otherwise *)

(** The value a parameter takes: the argument when one is given, the
    default of the signature otherwise. *)
Definition or_default {A : Type} (given : option A) (default : A) : A :=
  match given with
  | Some a => a
  | None => default
  end.

(** A registry that always gives the same answer. *)
Definition always (d : model_version) (_ _ : value) (_ : nat) : model_version :=
  d.

(** ** Strings: what a message contains *)

Section Strings.

Lemma prefix_refl_app (x b : string) : String.prefix x (x ++ b)%string = true.
Proof.
  induction x as [|c x IH]; simpl.
  - destruct b; reflexivity.
  - destruct (ascii_dec c c) as [_|ne]; [exact IH | contradiction].
Qed.

Lemma contains_prefix (x h : string) :
  String.prefix x h = true -> contains x h = true.
Proof. destruct h; simpl; intros ->; reflexivity. Qed.

Lemma contains_here (x b : string) : contains x (x ++ b)%string = true.
Proof. apply contains_prefix, prefix_refl_app. Qed.

Lemma contains_later (x a r : string) :
  contains x r = true -> contains x (a ++ r)%string = true.
Proof.
  intros H. induction a as [|c a IH]; simpl; [exact H|].
  rewrite IH. apply orb_true_r.
Qed.

(** A piece of an f-string is contained in the string it builds. *)
Lemma contains_fstring (x : string) (pieces : list string) :
  In x pieces -> contains x (fstring pieces) = true.
Proof.
  induction pieces as [|p ps IH]; simpl; [contradiction|].
  intros [->|Hin].
  - apply contains_here.
  - apply contains_later, IH, Hin.
Qed.

Lemma endswith_refl (x : string) : endswith x x = true.
Proof.
  pose proof (String.eqb_refl x) as H.
  destruct x; cbn [endswith]; rewrite H; reflexivity.
Qed.

Lemma endswith_app (a x : string) : endswith (a ++ x)%string x = true.
Proof.
  induction a as [|c a IH]; simpl; [apply endswith_refl|].
  rewrite IH. apply orb_true_r.
Qed.

Lemma fstring_app (l1 l2 : list string) :
  fstring (l1 ++ l2) = (fstring l1 ++ fstring l2)%string.
Proof.
  induction l1 as [|p l1 IH]; simpl; [reflexivity|].
  rewrite IH. clear IH. induction p as [|c p IHp]; simpl; [reflexivity|].
  now rewrite IHp.
Qed.

Lemma append_nil_r (a : string) : (a ++ "")%string = a.
Proof. induction a as [|c a IH]; simpl; [reflexivity | now rewrite IH]. Qed.

Lemma fstring3 (a b c : string) : fstring [a; b; c] = (a ++ b ++ c)%string.
Proof. simpl. now rewrite append_nil_r. Qed.

(** Consecutive pieces of an f-string, joined, are contained in it. *)
Lemma contains_fstring_run (pre mid post : list string) :
  contains (fstring mid) (fstring (pre ++ mid ++ post)) = true.
Proof. rewrite !fstring_app. apply contains_later, contains_here. Qed.

(** The last pieces of an f-string, joined, end it. *)
Lemma endswith_fstring (pre post : list string) :
  endswith (fstring (pre ++ post)) (fstring post) = true.
Proof. rewrite fstring_app. apply endswith_app. Qed.

End Strings.

(** ** Logs *)

Section Logs.

Lemma checks_app (a b : list event) : checks (a ++ b) = checks a + checks b.
Proof. unfold checks. now rewrite filter_app, length_app. Qed.

Lemma observations_app (a b : list event) :
  observations (a ++ b) = observations a ++ observations b.
Proof.
  induction a as [|[n v d|s] a IH]; simpl; [reflexivity| |exact IH].
  now rewrite IH.
Qed.

Lemma sleeps_app (a b : list event) : sleeps (a ++ b) = sleeps a ++ sleeps b.
Proof.
  induction a as [|[n v d|s] a IH]; simpl; [reflexivity|exact IH|].
  now rewrite IH.
Qed.

Lemma observations_length (l : list event) : length (observations l) = checks l.
Proof.
  unfold checks. induction l as [|[n v d|s] l IH]; simpl; [reflexivity| |exact IH].
  now rewrite IH.
Qed.

Lemma emit_emit (w : world) (a b : list event) :
  emit (emit w a) b = emit w (a ++ b).
Proof. unfold emit; simpl. now rewrite app_assoc. Qed.

Lemma emit_nil (w : world) : emit w [] = w.
Proof. destruct w; unfold emit; simpl. now rewrite app_nil_r. Qed.

End Logs.

(** ** Running the loop *)

Section Poll.

Variables model_name version stage status : value.

Let body := poll_once model_name version stage status.
Let obs := answers model_name version.
Let misses := rounds model_name version.
Let request := GetModelVersion model_name version.

Lemma poll_once_run (i : Z) (s : locals) (w : world) :
  body i s w =
    let d := obs w (checks (log w)) in
    if hit stage status d
    then (Done (inr tt), emit w [request d])
    else (Done (inl (seen d)), emit w [request d; Sleep 1]).
Proof.
  unfold body, poll_once, bind, get_model_version, hit, obs, answers; cbn zeta.
  destruct (target_reached stage status _); unfold ret, time_sleep.
  - reflexivity.
  - now rewrite emit_emit.
Qed.

Lemma checks_round (w : world) (d : model_version) :
  checks (log (emit w [request d; Sleep 1])) = S (checks (log w)).
Proof. cbn [emit log]. rewrite checks_app. cbn. lia. Qed.

(** The loop, when none of its rounds reaches the target. *)
Lemma for_in_miss (xs : list Z) :
  forall (s : locals) (w : world),
    (forall j, j < length xs ->
       hit stage status (obs w (checks (log w) + j)) = false) ->
    for_in xs body s w =
      (Done (inl (locals_after model_name version w s (length xs))),
       emit w (misses (obs w) (checks (log w)) (length xs))).
Proof.
  induction xs as [|x xs IH]; intros s w Hmiss.
  - cbn. now rewrite emit_nil.
  - cbn [for_in length]. unfold bind. rewrite poll_once_run. cbn zeta.
    pose proof (Hmiss 0 (Nat.lt_0_succ _)) as H0.
    rewrite Nat.add_0_r in H0. rewrite H0.
    set (d := obs w (checks (log w))).
    set (w1 := emit w [request d; Sleep 1]).
    assert (Hc : checks (log w1) = S (checks (log w))) by apply checks_round.
    rewrite (IH (seen d) w1).
    + f_equal.
      * do 2 f_equal.
        destruct xs as [|y ys]; cbn [length locals_after].
        -- subst d. unfold obs. now rewrite Nat.add_0_r.
        -- rewrite Hc. now rewrite Nat.add_succ_comm.
      * rewrite Hc. unfold w1. now rewrite emit_emit.
    + intros j Hj. rewrite Hc. change (obs w1) with (obs w).
      rewrite Nat.add_succ_comm. apply Hmiss. cbn [length]. lia.
Qed.

(** The loop, when round [k] (counted from 0) is the first to reach the
    target. *)
Lemma for_in_hit (xs : list Z) :
  forall (s : locals) (w : world) (k : nat),
    k < length xs ->
    (forall j, j < k -> hit stage status (obs w (checks (log w) + j)) = false) ->
    hit stage status (obs w (checks (log w) + k)) = true ->
    for_in xs body s w =
      (Done (inr tt),
       emit w (misses (obs w) (checks (log w)) k
               ++ [request (obs w (checks (log w) + k))])).
Proof.
  induction xs as [|x xs IH]; intros s w k Hk Hmiss Hhit.
  - cbn in Hk. lia.
  - cbn [for_in]. unfold bind. rewrite poll_once_run. cbn zeta.
    destruct k as [|k].
    + rewrite Nat.add_0_r in Hhit. rewrite Hhit. cbn [misses rounds app].
      now rewrite Nat.add_0_r.
    + pose proof (Hmiss 0 (Nat.lt_0_succ _)) as H0.
      rewrite Nat.add_0_r in H0. rewrite H0.
      set (d := obs w (checks (log w))).
      set (w1 := emit w [request d; Sleep 1]).
      assert (Hc : checks (log w1) = S (checks (log w))) by apply checks_round.
      rewrite (IH (seen d) w1 k).
      * rewrite Hc. change (obs w1) with (obs w).
        unfold w1. rewrite emit_emit. unfold misses. cbn [rounds app].
        now rewrite Nat.add_succ_comm.
      * cbn [length] in Hk. lia.
      * intros j Hj. rewrite Hc. change (obs w1) with (obs w).
        rewrite Nat.add_succ_comm. apply Hmiss. lia.
      * rewrite Hc. change (obs w1) with (obs w).
        now rewrite Nat.add_succ_comm.
Qed.

End Poll.

(** ** Traces *)

Section Traces.

Lemma skipn_length_app {A} (l d : list A) : skipn (length l) (l ++ d) = d.
Proof. induction l as [|a l IH]; [reflexivity | exact IH]. Qed.

Lemma log_emit_skipn (w : world) (es : list event) :
  skipn (length (log w)) (log (emit w es)) = es.
Proof. apply skipn_length_app. Qed.

Lemma first_hit (f : nat -> bool) (n : nat) :
  (forall j, j < n -> f j = false)
  \/ (exists k, k < n /\ f k = true /\ forall j, j < k -> f j = false).
Proof.
  induction n as [|n [Hall|(k & Hk & Hf & Hmin)]].
  - left. intros j Hj. lia.
  - destruct (f n) eqn:Hn.
    + right. exists n. repeat split; [lia | exact Hn | exact Hall].
    + left. intros j Hj. destruct (Nat.eq_dec j n) as [->|ne]; [exact Hn|].
      apply Hall. lia.
  - right. exists k. repeat split; [lia | exact Hf | exact Hmin].
Qed.

Lemma range_length (n : Z) : length (range n) = Z.to_nat n.
Proof. unfold range. now rewrite length_map, length_seq. Qed.

Lemma hit_iff (stage status : value) (d : model_version) :
  hit stage status d = true <-> observed d = target stage status.
Proof.
  unfold hit, target_reached, observed, target, seen; cbn [last_stage last_status].
  rewrite andb_true_iff, !String.eqb_eq. split.
  - intros [-> ->]. reflexivity.
  - intros H. injection H as -> ->. split; reflexivity.
Qed.

Lemma hit_false_iff (stage status : value) (d : model_version) :
  hit stage status d = false <-> observed d <> target stage status.
Proof.
  rewrite <- hit_iff. destruct (hit stage status d); split; congruence.
Qed.

End Traces.

Section Rounds.

Variables model_name version : value.
Variable obs : nat -> model_version.

Lemma rounds_checks (from n : nat) :
  checks (rounds model_name version obs from n) = n.
Proof.
  revert from. induction n as [|n IH]; intros from; [reflexivity|].
  cbn [rounds]. change (checks (?e :: Sleep 1 :: ?l)) with (S (checks l)).
  now rewrite IH.
Qed.

Lemma rounds_sleeps (from n : nat) :
  sleeps (rounds model_name version obs from n) = repeat 1%Z n.
Proof.
  revert from. induction n as [|n IH]; intros from; [reflexivity|].
  cbn. now rewrite IH.
Qed.

Lemma rounds_observations (from n : nat) :
  observations (rounds model_name version obs from n)
  = map (fun j => observed (obs (from + j))) (seq 0 n).
Proof.
  revert from. induction n as [|n IH]; intros from; [reflexivity|].
  cbn [rounds observations seq map]. rewrite Nat.add_0_r. f_equal.
  rewrite IH, <- seq_shift, map_map. apply map_ext. intros j.
  now rewrite Nat.add_succ_comm.
Qed.

(** A log of rounds, possibly followed by one last request, is empty or
    begins with a request. *)
Lemma rounds_head (from n : nat) (tl : list event) :
  tl = [] \/ (exists d, tl = [GetModelVersion model_name version d]) ->
  rounds model_name version obs from n ++ tl = []
  \/ exists d r,
      rounds model_name version obs from n ++ tl
      = GetModelVersion model_name version d :: r.
Proof.
  intros Htl. destruct n as [|n]; cbn [rounds app].
  - destruct Htl as [->|[d ->]]; [now left | right; now exists d, []].
  - right. eauto.
Qed.

End Rounds.

(** ** The two ways a run of [wait_for_model] ends *)

Section Run.

Variables model_name version stage status : value.
Variable timeout : Z.

Let run := wait_for_model model_name version stage status timeout.
Let s0 := initial_locals.

(** Round [k] (from 0) is the first whose answer reaches the target. *)
Lemma wait_hit (w : world) (k : nat) :
  k < Z.to_nat timeout ->
  (forall j, j < k ->
     hit stage status (answers model_name version w (checks (log w) + j)) = false) ->
  hit stage status (answers model_name version w (checks (log w) + k)) = true ->
  run w =
    (Done tt,
     emit w (rounds model_name version (answers model_name version w)
               (checks (log w)) k
             ++ [GetModelVersion model_name version
                   (answers model_name version w (checks (log w) + k))])).
Proof.
  intros Hk Hmiss Hhit. unfold run, wait_for_model, bind.
  change (Build_locals _ _) with s0.
  rewrite (for_in_hit model_name version stage status (range timeout) s0 w k);
    [reflexivity | now rewrite range_length | exact Hmiss | exact Hhit].
Qed.

(** No round reaches the target. *)
Lemma wait_miss (w : world) :
  (forall j, j < Z.to_nat timeout ->
     hit stage status (answers model_name version w (checks (log w) + j)) = false) ->
  run w =
    (Raised (Exception
               (timeout_message model_name version status timeout
                  (locals_after model_name version w s0 (Z.to_nat timeout)))),
     emit w (rounds model_name version (answers model_name version w)
               (checks (log w)) (Z.to_nat timeout))).
Proof.
  intros Hmiss. unfold run, wait_for_model, bind.
  change (Build_locals _ _) with s0.
  rewrite (for_in_miss model_name version stage status (range timeout) s0 w);
    rewrite range_length; [reflexivity | exact Hmiss].
Qed.

End Run.

(** ** What the timeout message holds *)

Section Message.

Variables model_name version status : value.
Variable timeout : Z.
Variable s : locals.

Let msg := timeout_message model_name version status timeout s.

Lemma message_names_model :
  contains (str model_name ++ " v" ++ str version)%string msg = true.
Proof.
  rewrite <- fstring3.
  exact (contains_fstring_run
           ["The model "%string] [str model_name; " v"%string; str version]
           [" was not "%string; fmt status; " after "%string;
            fmt (VInt timeout); " seconds: "%string;
            last_status s; "/"%string; last_stage s]).
Qed.

Lemma message_names_status : contains (str status) msg = true.
Proof. apply contains_fstring. cbn. unfold fmt. tauto. Qed.

Lemma message_names_timeout : contains (str (VInt timeout)) msg = true.
Proof. apply contains_fstring. cbn. unfold fmt. tauto. Qed.

Lemma message_ends_with_last :
  endswith msg (last_status s ++ "/" ++ last_stage s)%string = true.
Proof.
  rewrite <- fstring3.
  exact (endswith_fstring
           ["The model "%string; fmt model_name; " v"%string; fmt version;
            " was not "%string; fmt status; " after "%string;
            fmt (VInt timeout); " seconds: "%string]
           [last_status s; "/"%string; last_stage s]).
Qed.

Lemma message_names_last :
  contains (last_status s ++ "/" ++ last_stage s)%string msg = true.
Proof.
  rewrite <- fstring3.
  exact (contains_fstring_run
           ["The model "%string; fmt model_name; " v"%string; fmt version;
            " was not "%string; fmt status; " after "%string;
            fmt (VInt timeout); " seconds: "%string]
           [last_status s; "/"%string; last_stage s] []).
Qed.

End Message.

(** ** Summaries of the two kinds of run *)

Section Summaries.

Variables model_name version stage status : value.
Variable timeout : Z.
Variable w : world.

Let run := wait_for_model model_name version stage status timeout.
Let obs := answers model_name version w.
Let c := checks (log w).

(** A run that returns: what it returned and what it did. *)
Lemma returned_run (k : nat) :
  k < Z.to_nat timeout ->
  (forall j, j < k -> hit stage status (obs (c + j)) = false) ->
  hit stage status (obs (c + k)) = true ->
  result_of run w = Done tt
  /\ trace_of run w
     = rounds model_name version obs c k
       ++ [GetModelVersion model_name version (obs (c + k))].
Proof.
  intros Hk Hmiss Hhit. unfold result_of, trace_of, run.
  rewrite (wait_hit model_name version stage status timeout w k Hk Hmiss Hhit).
  cbn [fst snd]. now rewrite log_emit_skipn.
Qed.

(** A run that times out. *)
Lemma timed_out_run :
  (forall j, j < Z.to_nat timeout -> hit stage status (obs (c + j)) = false) ->
  result_of run w
  = Raised (Exception
              (timeout_message model_name version status timeout
                 (locals_after model_name version w initial_locals
                    (Z.to_nat timeout))))
  /\ trace_of run w = rounds model_name version obs c (Z.to_nat timeout).
Proof.
  intros Hmiss. unfold result_of, trace_of, run.
  rewrite (wait_miss model_name version stage status timeout w Hmiss).
  cbn [fst snd]. now rewrite log_emit_skipn.
Qed.

(** Every run is one or the other. *)
Lemma run_cases :
  (exists k,
      k < Z.to_nat timeout
      /\ (forall j, j < k -> hit stage status (obs (c + j)) = false)
      /\ hit stage status (obs (c + k)) = true
      /\ result_of run w = Done tt
      /\ trace_of run w
         = rounds model_name version obs c k
           ++ [GetModelVersion model_name version (obs (c + k))])
  \/ ((forall j, j < Z.to_nat timeout -> hit stage status (obs (c + j)) = false)
      /\ result_of run w
         = Raised (Exception
                     (timeout_message model_name version status timeout
                        (locals_after model_name version w initial_locals
                           (Z.to_nat timeout))))
      /\ trace_of run w = rounds model_name version obs c (Z.to_nat timeout)).
Proof.
  destruct (first_hit (fun j => hit stage status (obs (c + j))) (Z.to_nat timeout))
    as [Hall|(k & Hk & Hhit & Hmin)].
  - right. split; [exact Hall | now apply timed_out_run].
  - left. exists k. split; [exact Hk|]. split; [exact Hmin|].
    split; [exact Hhit|]. now apply returned_run.
Qed.

(** The last pair read, or the initial locals when nothing was read. *)
Lemma last_observation (s : locals) (n : nat) :
  last (observations (rounds model_name version obs c n))
    (last_stage s, last_status s)
  = (last_stage (locals_after model_name version w s n),
     last_status (locals_after model_name version w s n)).
Proof.
  rewrite rounds_observations. destruct n as [|m]; [reflexivity|].
  rewrite seq_S, map_app. cbn [map]. rewrite last_last. reflexivity.
Qed.

End Summaries.

(** ** The cadence of a run *)

Section Cadence.

Variables model_name version : value.
Variable obs : nat -> model_version.

(** In a log of rounds, possibly followed by one last request, whatever
    lies between two requests that follow each other is one sleep of 1. *)
Lemma rounds_gap (n : nat) :
  forall (from : nat) (tl pre mid post : list event) (e1 e2 : event),
    tl = [] \/ (exists d, tl = [GetModelVersion model_name version d]) ->
    rounds model_name version obs from n ++ tl = pre ++ e1 :: mid ++ e2 :: post ->
    is_check e1 = true ->
    is_check e2 = true ->
    checks mid = 0 ->
    mid = [Sleep 1].
Proof.
  induction n as [|n IH]; intros from tl pre mid post e1 e2 Htl E H1 H2 Hmid.
  - cbn [rounds app] in E. apply (f_equal (@length event)) in E.
    rewrite length_app in E. cbn [length] in E. rewrite length_app in E.
    cbn [length] in E.
    destruct Htl as [->|[d ->]]; cbn [length] in E; lia.
  - cbn [rounds app] in E. destruct pre as [|p pre]; cbn [app] in E.
    + injection E as <- E. destruct mid as [|m mid]; cbn [app] in E.
      * injection E as <- _. discriminate H2.
      * injection E as <- E.
        destruct (rounds_head model_name version obs (S from) n tl Htl)
          as [Hnil|(d & r & Hhead)].
        -- rewrite Hnil in E. destruct mid; discriminate E.
        -- rewrite Hhead in E. destruct mid as [|m' mid]; [reflexivity|].
           cbn [app] in E. injection E as <- _. discriminate Hmid.
    + injection E as _ E. destruct pre as [|p' pre]; cbn [app] in E.
      * injection E as <- _. discriminate H1.
      * injection E as _ E. exact (IH _ _ _ _ _ _ _ Htl E H1 H2 Hmid).
Qed.

Lemma repeat_all_equal {A} (x : A) (n : nat) :
  Forall (fun y => y = x) (repeat x n).
Proof. induction n; cbn; constructor; auto. Qed.

End Cadence.

(** ** Two runs that read the same pairs *)

Section SameObservations.

Variables model_name version stage status : value.

Lemma hit_observed (d1 d2 : model_version) :
  observed d1 = observed d2 -> hit stage status d1 = hit stage status d2.
Proof.
  intros E. destruct (hit stage status d2) eqn:H2.
  - apply hit_iff. rewrite E. now apply hit_iff.
  - apply hit_false_iff. rewrite E. now apply hit_false_iff.
Qed.

(** The last pair read by a run that returns is the one that hit. *)
Lemma last_observation_returned (w : world) (k : nat) (dflt : string * string) :
  last (observations
          (rounds model_name version (answers model_name version w)
             (checks (log w)) k
           ++ [GetModelVersion model_name version
                 (answers model_name version w (checks (log w) + k))]))
    dflt
  = observed (answers model_name version w (checks (log w) + k)).
Proof.
  rewrite observations_app. cbn [observations]. now rewrite last_last.
Qed.

(** The last pair read by a run of [S k] rounds. *)
Lemma last_observation_rounds (w : world) (k : nat) (dflt : string * string) :
  last (observations
          (rounds model_name version (answers model_name version w)
             (checks (log w)) (S k)))
    dflt
  = observed (answers model_name version w (checks (log w) + k)).
Proof.
  rewrite rounds_observations, seq_S, map_app. cbn [map].
  now rewrite last_last.
Qed.

End SameObservations.

(** ** The poll returns at the first check that reaches the target *)

(** C1. If the first check whose observed (stage, status) pair is the target
    pair is check [k], with [k < timeout], the call returns normally and
    has made exactly [k] registry requests. *)
Theorem wait_returns_at_first_match
    (model_name version stage status : value) (timeout : Z) (w : world)
    (k : nat) :
  1 <= k ->
  (Z.of_nat k < timeout)%Z ->
  (forall j, 1 <= j < k ->
     observed (tick model_name version w j) <> target stage status) ->
  observed (tick model_name version w k) = target stage status ->
  result_of (wait_for_model model_name version stage status timeout) w = Done tt
  /\ checks (trace_of (wait_for_model model_name version stage status timeout) w)
     = k.
Proof.
  intros Hk1 Hkt Hfirst Hat.
  assert (E := wait_hit model_name version stage status timeout w (pred k)).
  unfold result_of, trace_of. rewrite E; clear E.
  - cbn [fst snd]. rewrite log_emit_skipn, checks_app, rounds_checks.
    split; [reflexivity | cbv [checks filter is_check length]; lia].
  - lia.
  - intros j Hj. apply hit_false_iff.
    apply (Hfirst (S j)). lia.
  - apply hit_iff. exact Hat.
Qed.

(** The spec's example: with [timeout=5] and a registry that reports
    [("None", "PENDING")] on ticks 1-2 and [("Staging", "READY")] from
    tick 3 on, the call returns after the third check. *)
Lemma wait_returns_at_first_match_example :
  result_of (wait_for_model (VStr "m") (VInt 1) (VStr "Staging") (VStr "READY") 5)
    (fresh staging_from_third) = Done tt
  /\ checks (trace_of
               (wait_for_model (VStr "m") (VInt 1) (VStr "Staging") (VStr "READY") 5)
               (fresh staging_from_third)) = 3.
Proof.
  apply (wait_returns_at_first_match _ _ _ _ 5%Z (fresh staging_from_third) 3).
  - lia.
  - lia.
  - intros j Hj. assert (Hc : j = 1 \/ j = 2) by lia.
    destruct Hc as [-> | ->]; discriminate.
  - reflexivity.
Defined.


(** C4. With a positive timeout, if the first check already reads the
    target pair, the call returns normally after that one request and
    without sleeping, whatever the timeout. *)
Theorem wait_returns_on_first_check
    (model_name version stage status : value) (timeout : Z) (w : world) :
  (0 < timeout)%Z ->
  observed (tick model_name version w 1) = target stage status ->
  result_of (wait_for_model model_name version stage status timeout) w = Done tt
  /\ trace_of (wait_for_model model_name version stage status timeout) w
     = [GetModelVersion model_name version (tick model_name version w 1)]
  /\ checks (trace_of (wait_for_model model_name version stage status timeout) w)
     = 1
  /\ sleeps (trace_of (wait_for_model model_name version stage status timeout) w)
     = [].
Proof.
  intros Hpos Hat.
  destruct (returned_run model_name version stage status timeout w 0) as [Hr Ht].
  - lia.
  - intros j Hj. lia.
  - apply hit_iff. exact Hat.
  - rewrite Hr, Ht. repeat split.
Qed.

(** A registry already at the target: one request, no sleep, even with a
    timeout of a million ticks. *)
Lemma wait_returns_on_first_check_example :
  result_of
    (wait_for_model (VStr "m") (VInt 1) (VStr "Staging") (VStr "READY") 1000000)
    (fresh ready_at_once) = Done tt
  /\ trace_of
       (wait_for_model (VStr "m") (VInt 1) (VStr "Staging") (VStr "READY") 1000000)
       (fresh ready_at_once)
     = [GetModelVersion (VStr "m") (VInt 1) (details "Staging" "READY")]
  /\ checks
       (trace_of
          (wait_for_model (VStr "m") (VInt 1) (VStr "Staging") (VStr "READY") 1000000)
          (fresh ready_at_once)) = 1
  /\ sleeps
       (trace_of
          (wait_for_model (VStr "m") (VInt 1) (VStr "Staging") (VStr "READY") 1000000)
          (fresh ready_at_once)) = [].
Proof.
  apply (wait_returns_on_first_check _ _ _ _ 1000000%Z (fresh ready_at_once)).
  - lia.
  - reflexivity.
Defined.

(** ** The poll fails after [timeout] checks that all miss *)

(** C2. With a positive timeout, if none of the checks [1..timeout] reads
    the target pair, the call makes exactly [timeout] requests, each
    followed by a sleep of one second, and raises an exception whose message
    contains the last pair read (as [status/stage]), the timeout, the model
    name and version (as [name vversion]) and the requested status. *)
Theorem wait_times_out
    (model_name version stage status : value) (timeout : Z) (w : world) :
  (0 < timeout)%Z ->
  (forall j, 1 <= j -> (Z.of_nat j <= timeout)%Z ->
     observed (tick model_name version w j) <> target stage status) ->
  exists msg,
    result_of (wait_for_model model_name version stage status timeout) w
    = Raised (Exception msg)
    /\ checks (trace_of (wait_for_model model_name version stage status timeout) w)
       = Z.to_nat timeout
    /\ sleeps (trace_of (wait_for_model model_name version stage status timeout) w)
       = repeat 1%Z (Z.to_nat timeout)
    /\ contains
         (snd (observed (tick model_name version w (Z.to_nat timeout)))
          ++ "/"
          ++ fst (observed (tick model_name version w (Z.to_nat timeout))))%string
         msg = true
    /\ contains (str (VInt timeout)) msg = true
    /\ contains (str model_name ++ " v" ++ str version)%string msg = true
    /\ contains (str status) msg = true.
Proof.
  intros Hpos Hmiss.
  destruct (timed_out_run model_name version stage status timeout w) as [Hr Ht].
  { intros j Hj. apply hit_false_iff.
    apply (Hmiss (S j)); lia. }
  eexists. split; [exact Hr|]. rewrite Ht, rounds_checks, rounds_sleeps.
  split; [reflexivity|]. split; [reflexivity|].
  split; [|split; [|split]].
  - destruct (Z.to_nat timeout) as [|n] eqn:En; [lia|].
    exact (message_names_last model_name version status timeout
             (seen (tick model_name version w (S n)))).
  - apply message_names_timeout.
  - apply message_names_model.
  - apply message_names_status.
Qed.

(** The spec's example: [timeout=5] and a registry that never reports
    ["READY"].  Five requests, then an exception naming ["m v1"],
    ["READY"], the timeout and the last pair read, ["PENDING/None"]. *)
Lemma wait_times_out_example :
  exists msg,
    result_of (wait_for_model (VStr "m") (VInt 1) (VStr "Staging") (VStr "READY") 5)
      (fresh never_ready) = Raised (Exception msg)
    /\ checks (trace_of
                 (wait_for_model (VStr "m") (VInt 1) (VStr "Staging") (VStr "READY") 5)
                 (fresh never_ready)) = 5
    /\ sleeps (trace_of
                 (wait_for_model (VStr "m") (VInt 1) (VStr "Staging") (VStr "READY") 5)
                 (fresh never_ready)) = [1; 1; 1; 1; 1]%Z
    /\ contains "PENDING/None" msg = true
    /\ contains "5" msg = true
    /\ contains "m v1" msg = true
    /\ contains "READY" msg = true.
Proof.
  apply (wait_times_out (VStr "m") (VInt 1) (VStr "Staging") (VStr "READY") 5
           (fresh never_ready)).
  - lia.
  - intros j _ _. discriminate.
Defined.

(** C8. With a timeout of zero or less the loop body never runs: the call
    asks the registry nothing, does not sleep, leaves the world as it was,
    and raises an exception whose message ends with the initial
    ["unknown/unknown"]. *)
Theorem wait_without_budget
    (model_name version stage status : value) (timeout : Z) (w : world) :
  (timeout <= 0)%Z ->
  exists msg,
    wait_for_model model_name version stage status timeout w
    = (Raised (Exception msg), w)
    /\ checks (trace_of (wait_for_model model_name version stage status timeout) w)
       = 0
    /\ trace_of (wait_for_model model_name version stage status timeout) w = []
    /\ endswith msg "unknown/unknown" = true.
Proof.
  intros Hle.
  assert (Hn : Z.to_nat timeout = 0) by lia.
  assert (E := wait_miss model_name version stage status timeout w).
  rewrite Hn in E. cbn [rounds locals_after] in E. rewrite emit_nil in E.
  eexists. split; [apply E; intros j Hj; lia|].
  destruct (timed_out_run model_name version stage status timeout w) as [_ Ht].
  { intros j Hj. lia. }
  rewrite Ht, Hn. cbn [rounds]. repeat split.
  exact (endswith_fstring
           ["The model "%string; fmt model_name; " v"%string; fmt version;
            " was not "%string; fmt status; " after "%string;
            fmt (VInt timeout); " seconds: "%string]
           ["unknown"%string; "/"%string; "unknown"%string]).
Qed.

(** [timeout=0]: no request, and the message computed in full. *)
Lemma wait_without_budget_example :
  exists msg,
    wait_for_model (VStr "m") (VInt 1) (VStr "Staging") (VStr "READY") 0
      (fresh ready_at_once)
    = (Raised (Exception msg), fresh ready_at_once)
    /\ checks (trace_of
                 (wait_for_model (VStr "m") (VInt 1) (VStr "Staging") (VStr "READY") 0)
                 (fresh ready_at_once)) = 0
    /\ trace_of
         (wait_for_model (VStr "m") (VInt 1) (VStr "Staging") (VStr "READY") 0)
         (fresh ready_at_once) = []
    /\ endswith msg "unknown/unknown" = true.
Proof.
  apply (wait_without_budget (VStr "m") (VInt 1) (VStr "Staging") (VStr "READY") 0
           (fresh ready_at_once)).
  lia.
Defined.

(** ** What the timeout error carries *)

(** C3, as stated, fails: the message names the requested status but not
    the requested stage.  Waiting for ["Staging"] on a registry that stays
    at [("None", "PENDING")], the exception's message is the one below, and
    ["Staging"] does not occur in it. *)
Lemma timeout_message_omits_target_stage :
  result_of (wait_for_model (VStr "m") (VInt 1) (VStr "Staging") (VStr "READY") 1)
    (fresh never_ready)
  = Raised (Exception "The model m v1 was not READY after 1 seconds: PENDING/None")
  /\ contains (str (VStr "Staging"))
       "The model m v1 was not READY after 1 seconds: PENDING/None" = false.
Proof. split; reflexivity. Qed.

(** C3, amended. Whenever the call raises, the exception's message holds the
    model name and version, the requested status, and ends with the last
    status and stage read from the registry (["unknown/unknown"] when
    nothing was read).  The requested stage is not part of it. *)
Theorem timeout_error_carries
    (model_name version stage status : value) (timeout : Z) (w : world)
    (e : exn) :
  result_of (wait_for_model model_name version stage status timeout) w = Raised e ->
  exists msg,
    e = Exception msg
    /\ contains (str model_name ++ " v" ++ str version)%string msg = true
    /\ contains (str status) msg = true
    /\ endswith msg
         (snd (last (observations
                       (trace_of
                          (wait_for_model model_name version stage status timeout) w))
                 ("unknown", "unknown"))
          ++ "/"
          ++ fst (last (observations
                          (trace_of
                             (wait_for_model model_name version stage status timeout) w))
                    ("unknown", "unknown")))%string
       = true.
Proof.
  intros Hraised.
  destruct (run_cases model_name version stage status timeout w)
    as [(k & _ & _ & _ & Hr & _) | (_ & Hr & Ht)].
  - rewrite Hr in Hraised. discriminate.
  - rewrite Hr in Hraised. injection Hraised as <-.
    eexists. split; [reflexivity|].
    split; [apply message_names_model|].
    split; [apply message_names_status|].
    rewrite Ht.
    change ("unknown"%string, "unknown"%string)
      with (last_stage initial_locals, last_status initial_locals).
    rewrite last_observation. cbn [fst snd].
    apply message_ends_with_last.
Qed.

Lemma timeout_error_carries_example :
  exists msg,
    Exception "The model m v1 was not READY after 5 seconds: PENDING/None"
    = Exception msg
    /\ contains "m v1" msg = true
    /\ contains "READY" msg = true
    /\ endswith msg "PENDING/None" = true.
Proof.
  apply (timeout_error_carries (VStr "m") (VInt 1) (VStr "Staging") (VStr "READY") 5
           (fresh never_ready)).
  reflexivity.
Defined.

(** ** When a check ends the wait *)

(** The call returns having made [k] requests exactly when check [k] is
    within the timeout and is the first at which the test of the [if]
    holds. *)
Lemma returns_with_checks_iff
    (model_name version stage status : value) (timeout : Z) (w : world)
    (k : nat) :
  (result_of (wait_for_model model_name version stage status timeout) w = Done tt
   /\ checks (trace_of (wait_for_model model_name version stage status timeout) w)
      = k)
  <-> (1 <= k /\ (Z.of_nat k <= timeout)%Z
       /\ hit stage status (tick model_name version w k) = true
       /\ forall j, 1 <= j < k ->
            hit stage status (tick model_name version w j) = false).
Proof.
  split.
  - intros [Hr Hc].
    destruct (run_cases model_name version stage status timeout w)
      as [(k0 & Hk0 & Hmiss & Hhit & _ & Ht) | (_ & Hr' & _)].
    + rewrite Ht, checks_app, rounds_checks in Hc.
      cbv [checks filter is_check length] in Hc.
      assert (Hk : k = S k0) by lia. clear Hc. subst k.
      split; [lia|]. split; [lia|]. split; [exact Hhit|].
      intros j Hj. destruct j as [|j]; [lia|]. apply Hmiss. lia.
    + rewrite Hr' in Hr. discriminate.
  - intros (Hk1 & Hkt & Hhit & Hmiss).
    destruct (returned_run model_name version stage status timeout w (pred k))
      as [Hr Ht].
    + lia.
    + intros j Hj. apply (Hmiss (S j)). lia.
    + exact Hhit.
    + split; [exact Hr|]. rewrite Ht, checks_app, rounds_checks.
      cbv [checks filter is_check length]. lia.
Qed.

(** The test on an answer, spelled out on the answer's two attributes. *)
Lemma hit_string_forms (want_stage want_status : value) (d : model_version) :
  hit want_stage want_status d = true
  <-> (str (status d) = str want_status
       /\ str (current_stage d) = str want_stage).
Proof.
  unfold hit, target_reached, seen; cbn [last_stage last_status].
  now rewrite andb_true_iff, !String.eqb_eq.
Qed.

(** C9. [wait_for_model] decides by the string forms.  The loop body
    returns from the function exactly when [str] of the status read equals
    [str] of the requested status and [str] of the stage read equals [str]
    of the requested stage; and the call returns having made [k] requests
    exactly when check [k] is within the timeout and is the first at which
    the string forms agree on both.  So the comparison is case-sensitive (a
    registry at ["staging"] or at ["Ready"] never satisfies a wait for
    ["Staging"]/["READY"]), and a target that is not a string matches the
    registry value with the same string form (the [int] 1 matches ["1"] and
    not ["01"], [None] matches ["None"] and not ["none"], and the string
    ["None"] matches a stage held as [None]). *)
Theorem match_compares_string_forms
    (model_name version want_stage want_status : value) (timeout : Z)
    (w : world) :
  (forall (i : Z) (s : locals),
      result_of (poll_once model_name version want_stage want_status i s) w
      = Done (inr tt)
      <-> (str (status (tick model_name version w 1)) = str want_status
           /\ str (current_stage (tick model_name version w 1)) = str want_stage))
  /\ (forall k : nat,
        (result_of (wait_for_model model_name version want_stage want_status timeout) w
         = Done tt
         /\ checks (trace_of
                      (wait_for_model model_name version want_stage want_status timeout)
                      w) = k)
        <-> (1 <= k /\ (Z.of_nat k <= timeout)%Z
             /\ (str (status (tick model_name version w k)) = str want_status
                 /\ str (current_stage (tick model_name version w k))
                    = str want_stage)
             /\ forall j, 1 <= j < k ->
                  ~ (str (status (tick model_name version w j)) = str want_status
                     /\ str (current_stage (tick model_name version w j))
                        = str want_stage)))
  /\ result_of (wait_for_model (VStr "m") (VInt 1) (VStr "Staging") (VStr "READY") 2)
       (fresh (always (details "staging" "READY")))
     = Raised (Exception
                 "The model m v1 was not READY after 2 seconds: READY/staging")
  /\ result_of (wait_for_model (VStr "m") (VInt 1) (VStr "Staging") (VStr "READY") 2)
       (fresh (always (details "Staging" "Ready")))
     = Raised (Exception
                 "The model m v1 was not READY after 2 seconds: Ready/Staging")
  /\ result_of (wait_for_model (VStr "m") (VInt 1) (VInt 1) (VStr "READY") 2)
       (fresh (always (details "1" "READY"))) = Done tt
  /\ result_of (wait_for_model (VStr "m") (VInt 1) (VInt 1) (VStr "READY") 2)
       (fresh (always (details "01" "READY")))
     = Raised (Exception "The model m v1 was not READY after 2 seconds: READY/01")
  /\ result_of (wait_for_model (VStr "m") (VInt 1) VNone (VStr "READY") 2)
       (fresh (always (details "None" "READY"))) = Done tt
  /\ result_of (wait_for_model (VStr "m") (VInt 1) VNone (VStr "READY") 2)
       (fresh (always (details "none" "READY")))
     = Raised (Exception "The model m v1 was not READY after 2 seconds: READY/none")
  /\ result_of (wait_for_model (VStr "m") (VInt 1) (VStr "None") (VStr "READY") 2)
       (fresh (always (Build_model_version VNone (VStr "READY")))) = Done tt.
Proof.
  split; [|split; [|repeat split]].
  - intros i s. rewrite <- hit_string_forms. unfold result_of.
    rewrite poll_once_run. cbn zeta. unfold tick. cbn [pred].
    rewrite Nat.add_0_r.
    destruct (hit want_stage want_status
                (answers model_name version w (checks (log w)))); cbn [fst].
    + split; reflexivity.
    + split; discriminate.
  - intros k. rewrite returns_with_checks_iff, <- hit_string_forms. split.
    + intros (H1 & H2 & H3 & H4). repeat split; try assumption.
      intros j Hj Hboth. apply hit_string_forms in Hboth.
      rewrite (H4 j Hj) in Hboth. discriminate Hboth.
    + intros (H1 & H2 & H3 & H4). repeat split; try assumption.
      intros j Hj.
      destruct (hit want_stage want_status (tick model_name version w j)) eqn:E;
        [|reflexivity].
      exfalso. apply (H4 j Hj). apply hit_string_forms. exact E.
Qed.

(** C5. A check ends the wait exactly when both components match.  For
    the loop body: it returns from the function iff the stage read equals
    the requested stage and the status read equals the requested status.
    For the whole call: it returns normally having made [k] requests iff
    check [k] is within the timeout, is the first to read the target pair,
    and reads it.  A check at which only one component matches is not one
    at which the call returns. *)
Theorem wait_returns_iff_both_match
    (model_name version stage status : value) (timeout : Z) (w : world) :
  (forall (i : Z) (s : locals),
      result_of (poll_once model_name version stage status i s) w = Done (inr tt)
      <-> (fst (observed (tick model_name version w 1)) = str stage
           /\ snd (observed (tick model_name version w 1)) = str status))
  /\ (forall k : nat,
        (result_of (wait_for_model model_name version stage status timeout) w
         = Done tt
         /\ checks (trace_of (wait_for_model model_name version stage status timeout) w)
            = k)
        <-> (1 <= k /\ (Z.of_nat k <= timeout)%Z
             /\ (fst (observed (tick model_name version w k)) = str stage
                 /\ snd (observed (tick model_name version w k)) = str status)
             /\ forall j, 1 <= j < k ->
                  observed (tick model_name version w j) <> target stage status))
  /\ (forall k : nat,
        (fst (observed (tick model_name version w k)) = str stage
         /\ snd (observed (tick model_name version w k)) <> str status)
        \/ (fst (observed (tick model_name version w k)) <> str stage
            /\ snd (observed (tick model_name version w k)) = str status) ->
        ~ (result_of (wait_for_model model_name version stage status timeout) w
           = Done tt
           /\ checks (trace_of (wait_for_model model_name version stage status timeout) w)
              = k)).
Proof.
  assert (Hpair : forall d,
             hit stage status d = true
             <-> fst (observed d) = str stage /\ snd (observed d) = str status).
  { intros d. rewrite hit_iff. unfold observed, target; cbn [fst snd]. split.
    - intros H. injection H as -> ->. now split.
    - intros [-> ->]. reflexivity. }
  assert (Hrun : forall k : nat,
             (result_of (wait_for_model model_name version stage status timeout) w
              = Done tt
              /\ checks (trace_of (wait_for_model model_name version stage status timeout) w)
                 = k)
             <-> (1 <= k /\ (Z.of_nat k <= timeout)%Z
                  /\ hit stage status (tick model_name version w k) = true
                  /\ forall j, 1 <= j < k ->
                       hit stage status (tick model_name version w j) = false)).
  { intros k. split.
    - intros [Hr Hc].
      destruct (run_cases model_name version stage status timeout w)
        as [(k0 & Hk0 & Hmiss & Hhit & _ & Ht) | (_ & Hr' & _)].
      + rewrite Ht, checks_app, rounds_checks in Hc.
        cbv [checks filter is_check length] in Hc.
        assert (Hk : k = S k0) by lia. clear Hc. subst k.
        split; [lia|]. split; [lia|]. split; [exact Hhit|].
        intros j Hj. destruct j as [|j]; [lia|]. apply Hmiss. lia.
      + rewrite Hr' in Hr. discriminate.
    - intros (Hk1 & Hkt & Hhit & Hmiss).
      destruct (returned_run model_name version stage status timeout w (pred k))
        as [Hr Ht].
      + lia.
      + intros j Hj. apply (Hmiss (S j)). lia.
      + exact Hhit.
      + split; [exact Hr|]. rewrite Ht, checks_app, rounds_checks.
        cbv [checks filter is_check length]. lia. }
  split; [|split].
  - intros i s. rewrite <- Hpair. unfold result_of.
    rewrite poll_once_run. cbn zeta. unfold tick. cbn [pred].
    rewrite Nat.add_0_r.
    destruct (hit stage status
                (answers model_name version w (checks (log w)))); cbn [fst].
    + split; reflexivity.
    + split; discriminate.
  - intros k. rewrite Hrun, <- Hpair. split.
    + intros (H1 & H2 & H3 & H4). repeat split; try assumption.
      intros j Hj. apply hit_false_iff, H4, Hj.
    + intros (H1 & H2 & H3 & H4). repeat split; try assumption.
      intros j Hj. apply hit_false_iff, H4, Hj.
  - intros k Hone Hret. apply Hrun in Hret.
    destruct Hret as (_ & _ & Hhit & _). apply Hpair in Hhit.
    destruct Hhit as [Hs Ht]. destruct Hone as [[_ Hn] | [Hn _]]; contradiction.
Qed.

(** A registry that reaches the stage one check before the status: the
    second check, where only the stage matches, does not end the wait; the
    third does. *)
Example partial_match_goes_on :
  trace_of (wait_for_model (VStr "m") (VInt 1) (VStr "Staging") (VStr "READY") 5)
    (fresh stage_before_status)
  = [GetModelVersion (VStr "m") (VInt 1) (details "None" "PENDING"); Sleep 1;
     GetModelVersion (VStr "m") (VInt 1) (details "Staging" "PENDING"); Sleep 1;
     GetModelVersion (VStr "m") (VInt 1) (details "Staging" "READY")]
  /\ result_of (wait_for_model (VStr "m") (VInt 1) (VStr "Staging") (VStr "READY") 5)
       (fresh stage_before_status) = Done tt.
Proof. split; reflexivity. Qed.

(** ** Defaults *)

(** C6. Arguments left out take the defaults: [stage] is ["None"], [status]
    is ["READY"] and [timeout] is 300, each on its own, whatever else the
    call gives.  So a call without a timeout makes at most 300 requests; it
    raises, after exactly 300 requests and with 300 in its message, when
    none of the first 300 answers shows the pair waited for; and it returns
    at the first of these answers that does.  The pair waited for is the
    given stage (else ["None"]) and the given status (else ["READY"]). *)
Theorem wait_defaults
    (model_name version : value) (stage status : option value) (w : world) :
  (forall timeout : option Z,
      call_wait_for_model model_name version stage status timeout
      = wait_for_model model_name version
          (or_default stage (VStr "None")) (or_default status (VStr "READY"))
          (or_default timeout 300%Z))
  /\ checks (trace_of (call_wait_for_model model_name version stage status None) w)
     <= 300
  /\ (forall e,
        result_of (call_wait_for_model model_name version stage status None) w
        = Raised e ->
        checks (trace_of (call_wait_for_model model_name version stage status None) w)
        = 300
        /\ exists msg, e = Exception msg /\ contains "300" msg = true)
  /\ ((forall j, 1 <= j <= 300 ->
         observed (tick model_name version w j)
         <> target (or_default stage (VStr "None"))
              (or_default status (VStr "READY"))) ->
      exists msg,
        result_of (call_wait_for_model model_name version stage status None) w
        = Raised (Exception msg)
        /\ checks (trace_of
                     (call_wait_for_model model_name version stage status None) w)
           = 300)
  /\ (forall k,
        1 <= k <= 300 ->
        observed (tick model_name version w k)
        = target (or_default stage (VStr "None"))
            (or_default status (VStr "READY")) ->
        (forall j, 1 <= j < k ->
           observed (tick model_name version w j)
           <> target (or_default stage (VStr "None"))
                (or_default status (VStr "READY"))) ->
        result_of (call_wait_for_model model_name version stage status None) w
        = Done tt
        /\ checks (trace_of
                     (call_wait_for_model model_name version stage status None) w)
           = k).
Proof.
  assert (Hcall : forall timeout : option Z,
             call_wait_for_model model_name version stage status timeout
             = wait_for_model model_name version
                 (or_default stage (VStr "None")) (or_default status (VStr "READY"))
                 (or_default timeout 300%Z)).
  { intros timeout. destruct stage, status, timeout; reflexivity. }
  split; [exact Hcall|]. rewrite (Hcall None). cbn [or_default].
  set (stage' := or_default stage (VStr "None")).
  set (status' := or_default status (VStr "READY")).
  assert (H300 : Z.to_nat 300 = 300) by reflexivity.
  split; [|split; [|split]].
  - destruct (run_cases model_name version stage' status' 300 w)
      as [(k & Hk & _ & _ & _ & Ht) | (_ & _ & Ht)]; rewrite Ht.
    + rewrite checks_app, rounds_checks. cbv [checks filter is_check length]. lia.
    + rewrite rounds_checks. lia.
  - intros e He.
    destruct (run_cases model_name version stage' status' 300 w)
      as [(k & _ & _ & _ & Hr & _) | (_ & Hr & Ht)];
      rewrite Hr in He; [discriminate He|].
    injection He as <-. rewrite Ht, rounds_checks. split; [exact H300|].
    eexists. split; [reflexivity|].
    apply (message_names_timeout model_name version status' 300).
  - intros Hnone.
    destruct (timed_out_run model_name version stage' status' 300 w) as [Hr Ht].
    { intros j Hj. apply hit_false_iff. apply (Hnone (S j)). lia. }
    eexists. split; [exact Hr|]. rewrite Ht, rounds_checks. exact H300.
  - intros k Hk Hat Hfirst.
    destruct (returned_run model_name version stage' status' 300 w (pred k))
      as [Hr Ht].
    { lia. }
    { intros j Hj. apply hit_false_iff. apply (Hfirst (S j)). lia. }
    { apply hit_iff. exact Hat. }
    split; [exact Hr|]. rewrite Ht, checks_app, rounds_checks.
    cbv [checks filter is_check length]. lia.
Qed.

(** The notebook's call shapes.  With the stage given and the rest left
    out (lines 198, 216, 388, 412, 424) the wait is for that stage at
    ["READY"]; with nothing given (line 374) it is for ["None"] at
    ["READY"], which a registry already at ["Staging"] never shows. *)
Example notebook_call_shapes :
  result_of (call_wait_for_model (VStr "m") (VInt 1) (Some (VStr "Staging")) None None)
    (fresh staging_from_third) = Done tt
  /\ checks (trace_of
               (call_wait_for_model (VStr "m") (VInt 1) (Some (VStr "Staging"))
                  None None)
               (fresh staging_from_third)) = 3
  /\ result_of (call_wait_for_model (VStr "m") (VInt 1) None None (Some 2%Z))
       (fresh ready_at_once)
     = Raised (Exception
                 "The model m v1 was not READY after 2 seconds: READY/Staging").
Proof. repeat split. Qed.

(** ** The interval between checks *)

(** C7. Between two requests that follow each other in a run there is
    exactly one sleep, of one second; and every sleep of the run is of one
    second, so the interval never grows. *)
Theorem wait_sleeps_one_second_between_checks
    (model_name version stage status : value) (timeout : Z) (w : world)
    (pre mid post : list event) (e1 e2 : event) :
  trace_of (wait_for_model model_name version stage status timeout) w
  = pre ++ e1 :: mid ++ e2 :: post ->
  is_check e1 = true ->
  is_check e2 = true ->
  checks mid = 0 ->
  mid = [Sleep 1]
  /\ Forall (fun secs => secs = 1%Z)
       (sleeps (trace_of (wait_for_model model_name version stage status timeout) w)).
Proof.
  intros E H1 H2 Hmid.
  destruct (run_cases model_name version stage status timeout w)
    as [(k & _ & _ & _ & _ & Ht) | (_ & _ & Ht)]; rewrite Ht in *; clear Ht.
  - split.
    + eapply rounds_gap; [right; eexists; reflexivity | exact E | | | ]; assumption.
    + rewrite sleeps_app, rounds_sleeps. cbn [sleeps]. rewrite app_nil_r.
      apply repeat_all_equal.
  - split.
    + rewrite <- (app_nil_r (rounds _ _ _ _ _)) in E.
      eapply rounds_gap; [left; reflexivity | exact E | | | ]; assumption.
    + rewrite rounds_sleeps. apply repeat_all_equal.
Qed.

(** Three requests on the way to ["Staging"]/["READY"]: between the first
    two lies one sleep of one second. *)
Lemma wait_sleeps_one_second_between_checks_example :
  [Sleep 1] = [Sleep 1]
  /\ Forall (fun secs => secs = 1%Z)
       (sleeps (trace_of
                  (wait_for_model (VStr "m") (VInt 1) (VStr "Staging") (VStr "READY") 5)
                  (fresh staging_from_third))).
Proof.
  apply (wait_sleeps_one_second_between_checks
           (VStr "m") (VInt 1) (VStr "Staging") (VStr "READY") 5
           (fresh staging_from_third)
           [] [Sleep 1]
           [Sleep 1;
            GetModelVersion (VStr "m") (VInt 1) (details "Staging" "READY")]
           (GetModelVersion (VStr "m") (VInt 1) (details "None" "PENDING"))
           (GetModelVersion (VStr "m") (VInt 1) (details "None" "PENDING")));
    reflexivity.
Defined.

(** ** The outcome depends on the arguments and the pairs read only *)

(** C10. Two runs with the same arguments, from whatever worlds, that read
    the same sequence of (stage, status) pairs end the same way: both
    return, or both raise the same exception; and they make the same number
    of requests. *)
Theorem wait_outcome_determined
    (model_name version stage status : value) (timeout : Z) (w1 w2 : world) :
  observations (trace_of (wait_for_model model_name version stage status timeout) w1)
  = observations (trace_of (wait_for_model model_name version stage status timeout) w2) ->
  result_of (wait_for_model model_name version stage status timeout) w1
  = result_of (wait_for_model model_name version stage status timeout) w2
  /\ checks (trace_of (wait_for_model model_name version stage status timeout) w1)
     = checks (trace_of (wait_for_model model_name version stage status timeout) w2).
Proof.
  intros E.
  split; [|now rewrite <- !observations_length, E].
  assert (Elen := f_equal (@length _) E). rewrite !observations_length in Elen.
  destruct (run_cases model_name version stage status timeout w1)
    as [(k1 & Hk1 & _ & Hhit1 & Hr1 & Ht1) | (Hmiss1 & Hr1 & Ht1)];
    destruct (run_cases model_name version stage status timeout w2)
      as [(k2 & Hk2 & _ & Hhit2 & Hr2 & Ht2) | (Hmiss2 & Hr2 & Ht2)];
    rewrite Hr1, Hr2; rewrite Ht1, Ht2 in E, Elen; clear Hr1 Hr2 Ht1 Ht2.
  - reflexivity.
  - exfalso.
    rewrite checks_app, !rounds_checks in Elen.
    cbv [checks filter is_check length] in Elen.
    assert (En : Z.to_nat timeout = S k1) by lia. rewrite En in E.
    apply (f_equal (fun l => last l (EmptyString, EmptyString))) in E.
    rewrite last_observation_returned, last_observation_rounds in E.
    rewrite (hit_observed stage status _ _ E) in Hhit1.
    rewrite Hmiss2 in Hhit1; [discriminate | lia].
  - exfalso.
    rewrite checks_app, !rounds_checks in Elen.
    cbv [checks filter is_check length] in Elen.
    assert (En : Z.to_nat timeout = S k2) by lia. rewrite En in E.
    apply (f_equal (fun l => last l (EmptyString, EmptyString))) in E.
    rewrite last_observation_returned, last_observation_rounds in E.
    rewrite <- (hit_observed stage status _ _ E) in Hhit2.
    rewrite Hmiss1 in Hhit2; [discriminate | lia].
  - apply (f_equal (fun l => last l (last_stage initial_locals,
                                     last_status initial_locals))) in E.
    rewrite !last_observation in E.
    destruct (locals_after model_name version w1 initial_locals (Z.to_nat timeout))
      as [a1 b1].
    destruct (locals_after model_name version w2 initial_locals (Z.to_nat timeout))
      as [a2 b2].
    cbn [last_stage last_status] in E. injection E as -> ->. reflexivity.
Qed.

(** Two runs that read the same pairs: one from a fresh world, one from a
    world that has already asked about another model and whose registry
    holds the stage as [None] rather than as the string ["None"]. *)
Lemma wait_outcome_determined_example :
  result_of (wait_for_model (VStr "m") (VInt 1) (VStr "Staging") (VStr "READY") 5)
    (fresh staging_from_third)
  = result_of (wait_for_model (VStr "m") (VInt 1) (VStr "Staging") (VStr "READY") 5)
      after_another_request
  /\ checks (trace_of
               (wait_for_model (VStr "m") (VInt 1) (VStr "Staging") (VStr "READY") 5)
               (fresh staging_from_third))
     = checks (trace_of
                 (wait_for_model (VStr "m") (VInt 1) (VStr "Staging") (VStr "READY") 5)
                 after_another_request).
Proof.
  apply (wait_outcome_determined (VStr "m") (VInt 1) (VStr "Staging") (VStr "READY") 5).
  reflexivity.
Defined.

(** * Further properties of [wait_for_model] *)

Section MoreLogs.

Lemma requested_app (a b : list event) :
  requested (a ++ b) = requested a ++ requested b.
Proof.
  induction a as [|[n v d|s] a IH]; simpl; [reflexivity| |exact IH].
  now rewrite IH.
Qed.

Lemma rounds_requested (model_name version : value)
    (obs : nat -> model_version) (from n : nat) :
  requested (rounds model_name version obs from n)
  = repeat (model_name, version) n.
Proof.
  revert from. induction n as [|n IH]; intros from; [reflexivity|].
  cbn. now rewrite IH.
Qed.

Lemma slept_ones (n : nat) :
  fold_right Z.add 0%Z (repeat 1%Z n) = Z.of_nat n.
Proof. induction n as [|n IH]; [reflexivity|]. cbn [repeat fold_right]. lia. Qed.

(** A call only appends to the log and leaves the registry alone. *)
Lemma wait_appends (model_name version stage status : value) (timeout : Z)
    (w : world) :
  snd (wait_for_model model_name version stage status timeout w)
  = emit w (trace_of (wait_for_model model_name version stage status timeout) w).
Proof.
  unfold trace_of.
  destruct (first_hit
              (fun j => hit stage status
                          (answers model_name version w (checks (log w) + j)))
              (Z.to_nat timeout)) as [Hall|(k & Hk & Hhit & Hmin)].
  - rewrite (wait_miss _ _ _ _ _ w Hall). cbn [snd]. now rewrite log_emit_skipn.
  - rewrite (wait_hit _ _ _ _ _ w k Hk Hmin Hhit). cbn [snd].
    now rewrite log_emit_skipn.
Qed.

End MoreLogs.

(** X1. A call never goes over its budget: it makes at most [timeout]
    requests (none when [timeout] is negative), sleeps at most as many
    times, and sleeps at most [max(timeout, 0)] seconds in all. *)
Theorem wait_stays_within_budget
    (model_name version stage status : value) (timeout : Z) (w : world) :
  checks (trace_of (wait_for_model model_name version stage status timeout) w)
  <= Z.to_nat timeout
  /\ length (sleeps (trace_of (wait_for_model model_name version stage status timeout) w))
     <= Z.to_nat timeout
  /\ (0 <= slept (trace_of (wait_for_model model_name version stage status timeout) w)
      <= Z.max 0 timeout)%Z.
Proof.
  unfold slept.
  destruct (run_cases model_name version stage status timeout w)
    as [(k & Hk & _ & _ & _ & Ht) | (_ & _ & Ht)]; rewrite Ht; clear Ht.
  - rewrite checks_app, sleeps_app, !rounds_checks, !rounds_sleeps.
    cbn [sleeps]. rewrite app_nil_r, repeat_length, slept_ones.
    cbv [checks filter is_check length]. lia.
  - rewrite rounds_checks, rounds_sleeps, repeat_length, slept_ones. lia.
Qed.

(** X2. A call that returns has slept once less than it has asked (there
    is no sleep after the check that matched), and [k - 1] seconds for [k]
    requests.  A call that raises has slept after every request, the last
    one included, and has used its whole budget of requests. *)
Theorem wait_sleeps_after_each_miss
    (model_name version stage status : value) (timeout : Z) (w : world) :
  match result_of (wait_for_model model_name version stage status timeout) w with
  | Done _ =>
      S (length (sleeps (trace_of
                           (wait_for_model model_name version stage status timeout) w)))
      = checks (trace_of (wait_for_model model_name version stage status timeout) w)
      /\ (slept (trace_of (wait_for_model model_name version stage status timeout) w)
          = Z.of_nat
              (checks (trace_of
                         (wait_for_model model_name version stage status timeout) w))
            - 1)%Z
  | Raised _ =>
      length (sleeps (trace_of
                        (wait_for_model model_name version stage status timeout) w))
      = checks (trace_of (wait_for_model model_name version stage status timeout) w)
      /\ checks (trace_of (wait_for_model model_name version stage status timeout) w)
         = Z.to_nat timeout
      /\ slept (trace_of (wait_for_model model_name version stage status timeout) w)
         = Z.max 0 timeout
  end.
Proof.
  unfold slept.
  destruct (run_cases model_name version stage status timeout w)
    as [(k & Hk & _ & _ & Hr & Ht) | (_ & Hr & Ht)]; rewrite Hr, Ht; clear Hr Ht.
  - rewrite checks_app, sleeps_app, !rounds_checks, !rounds_sleeps.
    cbn [sleeps]. rewrite app_nil_r, repeat_length, slept_ones.
    cbv [checks filter is_check length]. lia.
  - rewrite rounds_checks, rounds_sleeps, repeat_length, slept_ones. lia.
Qed.

(** X3. A call asks the registry about the model version it was given and
    about no other: every request of its trace names [model_name] and
    [version]. *)
Theorem wait_asks_about_its_model_only
    (model_name version stage status : value) (timeout : Z) (w : world) :
  requested (trace_of (wait_for_model model_name version stage status timeout) w)
  = repeat (model_name, version)
      (checks (trace_of (wait_for_model model_name version stage status timeout) w)).
Proof.
  destruct (run_cases model_name version stage status timeout w)
    as [(k & Hk & _ & _ & _ & Ht) | (_ & _ & Ht)]; rewrite Ht; clear Ht.
  - rewrite requested_app, checks_app, rounds_requested, rounds_checks.
    cbn [requested]. cbv [checks filter is_check length].
    now rewrite repeat_app.
  - now rewrite rounds_requested, rounds_checks.
Qed.

(** X4. A larger budget never hurts: a call that returns with some timeout
    does exactly the same (same outcome, same final world) with any larger
    timeout. *)
Theorem wait_larger_timeout_same_run
    (model_name version stage status : value) (timeout timeout' : Z)
    (w : world) :
  (timeout <= timeout')%Z ->
  result_of (wait_for_model model_name version stage status timeout) w = Done tt ->
  wait_for_model model_name version stage status timeout' w
  = wait_for_model model_name version stage status timeout w.
Proof.
  intros Hle Hret.
  destruct (first_hit
              (fun j => hit stage status
                          (answers model_name version w (checks (log w) + j)))
              (Z.to_nat timeout)) as [Hall|(k & Hk & Hhit & Hmin)].
  - unfold result_of in Hret.
    rewrite (wait_miss _ _ _ _ _ w Hall) in Hret. discriminate Hret.
  - rewrite (wait_hit _ _ _ _ timeout w k Hk Hmin Hhit).
    apply wait_hit; [lia | exact Hmin | exact Hhit].
Qed.

Lemma wait_larger_timeout_same_run_example :
  wait_for_model (VStr "m") (VInt 1) (VStr "Staging") (VStr "READY") 300
    (fresh staging_from_third)
  = wait_for_model (VStr "m") (VInt 1) (VStr "Staging") (VStr "READY") 3
      (fresh staging_from_third).
Proof.
  apply (wait_larger_timeout_same_run
           (VStr "m") (VInt 1) (VStr "Staging") (VStr "READY") 3 300).
  - lia.
  - reflexivity.
Defined.

(** X5. A call raises exactly when none of the checks its budget allows
    reads the target pair; so it never raises while a match is within the
    budget, and never returns without one. *)
Theorem wait_raises_iff_no_match
    (model_name version stage status : value) (timeout : Z) (w : world) :
  (exists e,
      result_of (wait_for_model model_name version stage status timeout) w
      = Raised e)
  <-> (forall j, 1 <= j -> (Z.of_nat j <= timeout)%Z ->
         observed (tick model_name version w j) <> target stage status).
Proof.
  destruct (run_cases model_name version stage status timeout w)
    as [(k & Hk & _ & Hhit & Hr & _) | (Hmiss & Hr & _)]; rewrite Hr; clear Hr.
  - split.
    + intros [e He]. discriminate He.
    + intros Hnone. exfalso. apply (Hnone (S k)); [lia | lia |].
      apply hit_iff. exact Hhit.
  - split.
    + intros _ j Hj1 Hjt. apply hit_false_iff.
      destruct j as [|j]; [lia|]. apply Hmiss. lia.
    + intros _. eexists. reflexivity.
Qed.

(** X6. The requested stage leaves no mark on the error: two calls from
    the same world that differ in the requested stage only, when both
    raise, raise the same exception. *)
Theorem timeout_error_ignores_target_stage
    (model_name version stage stage' status : value) (timeout : Z) (w : world)
    (e e' : exn) :
  result_of (wait_for_model model_name version stage status timeout) w = Raised e ->
  result_of (wait_for_model model_name version stage' status timeout) w = Raised e' ->
  e = e'.
Proof.
  intros He He'.
  destruct (run_cases model_name version stage status timeout w)
    as [(k & _ & _ & _ & Hr & _) | (_ & Hr & _)];
    rewrite Hr in He; [discriminate He|].
  destruct (run_cases model_name version stage' status timeout w)
    as [(k & _ & _ & _ & Hr' & _) | (_ & Hr' & _)];
    rewrite Hr' in He'; [discriminate He'|].
  congruence.
Qed.

Lemma timeout_error_ignores_target_stage_example :
  Exception "The model m v1 was not READY after 2 seconds: PENDING/None"
  = Exception "The model m v1 was not READY after 2 seconds: PENDING/None".
Proof.
  apply (timeout_error_ignores_target_stage
           (VStr "m") (VInt 1) (VStr "Staging") (VStr "Production") (VStr "READY")
           2 (fresh never_ready)); reflexivity.
Defined.

(** * The notebook's paths and names *)

Section Appends.

Lemma prefix_app_same (a x y : string) :
  String.prefix (a ++ x)%string (a ++ y)%string = String.prefix x y.
Proof.
  induction a as [|c a IH]; simpl; [reflexivity|].
  destruct (ascii_dec c c) as [_|ne]; [exact IH | contradiction].
Qed.

Lemma length_append (a b : string) :
  String.length (a ++ b)%string = String.length a + String.length b.
Proof. induction a as [|c a IH]; simpl; [reflexivity | now rewrite IH]. Qed.

(** A common suffix cancels. *)
Lemma append_cancel_r (a b s : string) :
  (a ++ s)%string = (b ++ s)%string -> a = b.
Proof.
  revert b. induction a as [|c a IH]; intros [|d b] E; simpl in E.
  - reflexivity.
  - apply (f_equal String.length) in E. simpl in E.
    rewrite length_append in E. lia.
  - apply (f_equal String.length) in E. simpl in E.
    rewrite length_append in E. lia.
  - injection E as -> E. f_equal. apply IH, E.
Qed.

End Appends.

(** X8. Whatever the working directory, the train and test paths differ and
    neither lies under the other (neither is a prefix of the other), so
    removing or overwriting one cannot touch the other. *)
Theorem train_and_test_paths_apart (working_dir : string) :
  Notebook.train_delta_path working_dir <> Notebook.test_delta_path working_dir
  /\ String.prefix (Notebook.train_delta_path working_dir)
       (Notebook.test_delta_path working_dir) = false
  /\ String.prefix (Notebook.test_delta_path working_dir)
       (Notebook.train_delta_path working_dir) = false.
Proof.
  unfold Notebook.train_delta_path, Notebook.test_delta_path.
  rewrite !prefix_app_same. split; [|split; reflexivity].
  intros E.
  pose proof (prefix_refl_app (working_dir ++ "/train.delta") "") as H.
  rewrite append_nil_r in H. rewrite E in H at 2.
  rewrite prefix_app_same in H. discriminate H.
Qed.

(** X9. The registered model's name and the model URI keep their inputs
    apart: two user names with different string forms give different model
    names, and two run ids with different string forms give different
    URIs. *)
Theorem model_name_and_uri_injective (a b : value) :
  (Notebook.model_name a = Notebook.model_name b -> str a = str b)
  /\ (Notebook.model_uri a = Notebook.model_uri b -> str a = str b).
Proof.
  unfold Notebook.model_name, Notebook.model_uri, fmt; cbn [fstring fold_right].
  split; intros E.
  - exact (append_cancel_r _ _ _ E).
  - cbn [String.append] in E.
    injection E as E. exact (append_cancel_r _ _ _ E).
Qed.

(** * The newest version of the model *)

(** [max] over values of one kind.  The kind is given by its embedding
    [inj] into the values and by the order [ltb] that [>] computes on it;
    [a] is below [b] when [b < a] fails. *)
Section MaxOfOneKind.

Variable A : Type.
Variable inj : A -> value.
Variable ltb : A -> A -> bool.

Let le (a b : A) : Prop := ltb b a = false.

Hypothesis gt_inj : forall a b, Notebook.gt (inj a) (inj b) = inr (ltb b a).
Hypothesis lt_le : forall a b, ltb a b = true -> le a b.
Hypothesis le_refl : forall a, le a a.
Hypothesis le_trans : forall a b c, le a b -> le b c -> le a c.

(** The loop never raises, and ends on an item it has seen that no item is
    above. *)
Lemma max_from_greatest (items : list A) :
  forall maximum : A,
  exists r,
    Notebook.max_from (inj maximum) (map inj items) = inr (inj r)
    /\ In r (maximum :: items)
    /\ le maximum r
    /\ Forall (fun x => le x r) items.
Proof.
  induction items as [|item items IH]; intros maximum.
  - exists maximum. cbn. repeat split; [now left | apply le_refl | constructor].
  - cbn [map Notebook.max_from]. rewrite gt_inj.
    destruct (ltb maximum item) eqn:Hlt.
    + destruct (IH item) as (r & Hr & Hin & Hle & Hall).
      exists r. split; [exact Hr|]. split; [|split].
      * destruct Hin as [<-|Hin]; [right; now left | right; now right].
      * apply (le_trans _ item); [apply lt_le, Hlt | exact Hle].
      * constructor; assumption.
    + destruct (IH maximum) as (r & Hr & Hin & Hle & Hall).
      exists r. split; [exact Hr|]. split; [|split].
      * destruct Hin as [<-|Hin]; [now left | right; now right].
      * exact Hle.
      * constructor; [|exact Hall].
        apply (le_trans _ maximum); [exact Hlt | exact Hle].
Qed.

(** [max] of a non-empty list of that kind. *)
Lemma max_greatest (first : A) (items : list A) :
  exists r,
    Notebook.max (map inj (first :: items)) = inr (inj r)
    /\ In r (first :: items)
    /\ Forall (fun x => le x r) (first :: items).
Proof.
  destruct (max_from_greatest items first) as (r & Hr & Hin & Hle & Hall).
  exists r. split; [exact Hr|]. split; [exact Hin|]. now constructor.
Qed.

End MaxOfOneKind.

Section StringOrder.

Lemma string_lt_le (a b : string) :
  String.ltb a b = true -> String.ltb b a = false.
Proof.
  unfold String.ltb. rewrite (String.compare_antisym b a).
  destruct (String.compare a b); cbn; congruence.
Qed.

Lemma string_le_refl (a : string) : String.ltb a a = false.
Proof.
  unfold String.ltb.
  destruct (String.compare a a) eqn:E; try reflexivity.
  pose proof (String.compare_antisym a a) as H. rewrite E in H. discriminate H.
Qed.

Lemma string_le_trans (a b c : string) :
  String.ltb b a = false -> String.ltb c b = false -> String.ltb c a = false.
Proof.
  unfold String.ltb. intros Hab Hbc.
  destruct (String.compare c a) eqn:Eca; try reflexivity. exfalso.
  destruct (String.compare b a) eqn:Eba; try discriminate Hab.
  - apply String.compare_eq_iff in Eba. subst b.
    rewrite Eca in Hbc. discriminate Hbc.
  - destruct (String.compare c b) eqn:Ecb; try discriminate Hbc.
    + apply String.compare_eq_iff in Ecb. subst c.
      rewrite Eca in Eba. discriminate Eba.
    + rewrite String.compare_antisym in Eba, Ecb.
      destruct (String.compare a b) eqn:Eab; try discriminate Eba.
      destruct (String.compare b c) eqn:Ebc; try discriminate Ecb.
      apply OrderedTypeEx.String_as_OT.cmp_lt in Eab, Ebc.
      pose proof (OrderedTypeEx.String_as_OT.lt_trans _ _ _ Eab Ebc) as Hac.
      apply OrderedTypeEx.String_as_OT.cmp_lt in Hac.
      change OrderedTypeEx.String_as_OT.cmp with String.compare in Hac.
      rewrite String.compare_antisym, Hac in Eca. discriminate Eca.
Qed.

End StringOrder.

(** X10. With integer versions, [new_model_version] raises [ValueError]
    when the search found no version, and otherwise yields one of the
    versions found, which none of them exceeds. *)
Theorem new_model_version_of_ints (versions : list Z) :
  match versions with
  | [] =>
      Notebook.new_model_version
        (map (fun z => Notebook.Build_model_version_info (VInt z)) versions)
      = inl Notebook.ValueError
  | _ :: _ =>
      exists newest,
        Notebook.new_model_version
          (map (fun z => Notebook.Build_model_version_info (VInt z)) versions)
        = inr (VInt newest)
        /\ In newest versions
        /\ Forall (fun z => (z <= newest)%Z) versions
  end.
Proof.
  destruct versions as [|first rest]; [reflexivity|].
  unfold Notebook.new_model_version. rewrite map_map. cbn [Notebook.version].
  destruct (max_greatest Z VInt Z.ltb) with (first := first) (items := rest)
    as (r & Hr & Hin & Hall).
  - intros a b. reflexivity.
  - intros a b H. apply Z.ltb_lt in H. apply Z.ltb_ge. lia.
  - intros a. apply Z.ltb_irrefl.
  - intros a b c Hab Hbc. apply Z.ltb_ge in Hab, Hbc. apply Z.ltb_ge. lia.
  - exists r. split; [exact Hr|]. split; [exact Hin|].
    eapply Forall_impl; [|exact Hall]. intros z Hz. now apply Z.ltb_ge in Hz.
Qed.

(** X11. With string versions, as the registry client gives them, the
    order is the lexicographic one: [new_model_version] raises
    [ValueError] when the search found no version, and otherwise yields
    one of the versions found, below which every one of them lies
    lexicographically (so ["9"] wins over ["10"]). *)
Theorem new_model_version_of_strings (versions : list string) :
  match versions with
  | [] =>
      Notebook.new_model_version
        (map (fun s => Notebook.Build_model_version_info (VStr s)) versions)
      = inl Notebook.ValueError
  | _ :: _ =>
      exists newest,
        Notebook.new_model_version
          (map (fun s => Notebook.Build_model_version_info (VStr s)) versions)
        = inr (VStr newest)
        /\ In newest versions
        /\ Forall (fun s => String.leb s newest = true) versions
  end.
Proof.
  destruct versions as [|first rest]; [reflexivity|].
  unfold Notebook.new_model_version. rewrite map_map. cbn [Notebook.version].
  destruct (max_greatest string VStr String.ltb) with (first := first) (items := rest)
    as (r & Hr & Hin & Hall).
  - intros a b. reflexivity.
  - apply string_lt_le.
  - apply string_le_refl.
  - apply string_le_trans.
  - exists r. split; [exact Hr|]. split; [exact Hin|].
    eapply Forall_impl; [|exact Hall]. cbv beta. intros s Hs.
    unfold String.ltb in Hs. unfold String.leb.
    rewrite String.compare_antisym.
    destruct (String.compare r s); cbn; congruence.
Qed.

(** Versions ["9"] and ["10"], as strings and as integers. *)
Example newest_of_nine_and_ten :
  Notebook.new_model_version
    [Notebook.Build_model_version_info (VStr "9");
     Notebook.Build_model_version_info (VStr "10")]
  = inr (VStr "9")
  /\ Notebook.new_model_version
       [Notebook.Build_model_version_info (VInt 9);
        Notebook.Build_model_version_info (VInt 10)]
     = inr (VInt 10)
  /\ Notebook.new_model_version
       [Notebook.Build_model_version_info (VInt 9);
        Notebook.Build_model_version_info (VStr "10")]
     = inl Notebook.TypeError.
Proof. repeat split. Qed.

(** * Waiting twice for the same state *)

(** X12. The notebook waits for the same model version and state twice in
    a row (lines 198 and 216).  When the first call returns and the
    registry's next answer still shows the target pair, the second call
    costs one more request and no sleep: the two calls return, and their
    trace is the first call's followed by that single request. *)
Theorem second_wait_costs_one_check
    (model_name version stage status : value) (timeout1 timeout2 : Z)
    (w : world) :
  result_of (wait_for_model model_name version stage status timeout1) w = Done tt ->
  (0 < timeout2)%Z ->
  observed
    (tick model_name version w
       (S (checks (trace_of
                     (wait_for_model model_name version stage status timeout1) w))))
  = target stage status ->
  result_of (wait_then_wait model_name version stage status timeout1
               model_name version stage status timeout2) w = Done tt
  /\ trace_of (wait_then_wait model_name version stage status timeout1
                 model_name version stage status timeout2) w
     = trace_of (wait_for_model model_name version stage status timeout1) w
       ++ [GetModelVersion model_name version
             (tick model_name version w
                (S (checks (trace_of
                              (wait_for_model model_name version stage status timeout1)
                              w))))].
Proof.
  intros Hret Hpos Hat.
  pose proof (wait_appends model_name version stage status timeout1 w) as H1.
  set (t1 := trace_of (wait_for_model model_name version stage status timeout1) w) in *.
  set (w1 := emit w t1) in *.
  assert (Hsame : answers model_name version w1 (checks (log w1) + 0)
                  = tick model_name version w (S (checks t1))).
  { unfold tick, answers, w1; cbn [emit registry log pred].
    rewrite checks_app. f_equal. lia. }
  destruct (returned_run model_name version stage status timeout2 w1 0)
    as [Hr2 Ht2].
  { lia. }
  { intros j Hj. lia. }
  { rewrite Hsame. apply hit_iff, Hat. }
  pose proof (wait_appends model_name version stage status timeout2 w1) as H2.
  rewrite Ht2 in H2. cbn [rounds app] in H2. rewrite Hsame in Ht2, H2.
  unfold result_of in Hret, Hr2.
  unfold wait_then_wait, result_of, bind. unfold trace_of at 1.
  destruct (wait_for_model model_name version stage status timeout1 w)
    as [r1 w1']; cbn [fst snd] in *. subst r1 w1'.
  destruct (wait_for_model model_name version stage status timeout2 w1)
    as [r2 w2]; cbn [fst snd] in *. subst r2 w2.
  split; [reflexivity|].
  unfold w1. rewrite emit_emit. now rewrite log_emit_skipn.
Qed.

(** A registry that reaches ["Staging"]/["READY"] on its third answer and
    stays there: the first wait makes three requests, the second a fourth
    and no more. *)
Lemma second_wait_costs_one_check_example :
  result_of (wait_then_wait (VStr "m") (VInt 1) (VStr "Staging") (VStr "READY") 5
               (VStr "m") (VInt 1) (VStr "Staging") (VStr "READY") 5)
    (fresh staging_from_third) = Done tt
  /\ trace_of (wait_then_wait (VStr "m") (VInt 1) (VStr "Staging") (VStr "READY") 5
                 (VStr "m") (VInt 1) (VStr "Staging") (VStr "READY") 5)
       (fresh staging_from_third)
     = [GetModelVersion (VStr "m") (VInt 1) (details "None" "PENDING"); Sleep 1;
        GetModelVersion (VStr "m") (VInt 1) (details "None" "PENDING"); Sleep 1;
        GetModelVersion (VStr "m") (VInt 1) (details "Staging" "READY");
        GetModelVersion (VStr "m") (VInt 1) (details "Staging" "READY")].
Proof.
  apply (second_wait_costs_one_check
           (VStr "m") (VInt 1) (VStr "Staging") (VStr "READY") 5 5
           (fresh staging_from_third)).
  - reflexivity.
  - lia.
  - reflexivity.
Defined.
